(** * flask-cpu-load: the start/stop/status contract of [app.py]

    A shallow embedding of [src/app.py] and the properties of its
    specification.

    - The two module globals [cpu_load_active] and [cpu_thread] are the
      fields of a [state] record; the [threading.Thread] objects live in a
      pool ([threads]) and [cpu_thread] holds a reference into it, so that a
      handle can be shared, replaced and asked [is_alive].
    - A request handler is a function from the request and the state it
      finds to a reply and a new state (explicit state passing).  A handler
      body is one transition of the process: what is stated about a
      handler is stated about its body run from the state it finds, and no
      history below relies on two handler bodies being interleaved.
    - The background unit ([start_cpu_load_thread] calling
      [calculate_fibonacci]) is a small-step machine that moves from one
      source statement to the next, so that the requests and the other
      units can run between any two of its statements.
    - Python's [int] is unbounded: numbers are [Z].  Values of the request
      body are JSON values; a JSON float is an IEEE value ([spec_float]).
    - [print] writes to standard output only; it is not part of [state].
      The last step of a thread stands for line 48, the [print] of line 49
      and the return of [run()] together: the moment at which line 48 has
      run and the thread has not yet returned is not a state of its own,
      so nothing below is stated about the flag and the liveness of a
      thread at that moment. *)

From Stdlib Require Import ZArith String Ascii Bool Lia.
From Stdlib Require Import Floats.SpecFloat.
From stdpp Require Import gmap strings list pretty.

#[local] Set Warnings "-register-all".
#[local] Open Scope Z_scope.

(** ** Python values and exceptions *)

(** What [request.get_json(silent=True)] can hand to the handler: the
    Python image of a JSON document. *)
Inductive json : Type :=
| JNull
| JBool (b : bool)
| JInt (z : Z)
| JFloat (f : spec_float)
| JStr (s : string)
| JArr (l : list json)
| JObj (m : gmap string json).

(** The exception classes the handler can meet. *)
Inductive exn : Type := ValueError | TypeError | OverflowError | KeyError.

(** A Python expression either yields a value or raises. *)
Inductive result (A : Type) : Type :=
| Ok (a : A)
| Raise (e : exn).
Arguments Ok {A} a.
Arguments Raise {A} e.

(** Sequencing: an exception leaves the rest of the block unrun. *)
#[export] Instance result_bind : MBind result := fun A B k r =>
  match r with
  | Ok a => k a
  | Raise e => Raise e
  end.

(** [bool(v)]: the truth value Python gives to [v] in a condition. *)
Definition truthy (v : json) : bool :=
  match v with
  | JNull => false
  | JBool b => b
  | JInt z => negb (z =? 0)
  | JFloat (S754_zero _) => false
  | JFloat _ => true
  | JStr s => negb (String.eqb s "")
  | JArr l => negb (Nat.eqb (length l) 0)
  | JObj m => negb (Nat.eqb (size m) 0)
  end.

Definition is_str (key : string) (v : json) : bool :=
  match v with
  | JStr s => String.eqb key s
  | _ => false
  end.

Definition is_substring (key s : string) : bool :=
  match String.index 0 key s with
  | Some _ => true
  | None => false
  end.

(** [key in d] for a string [key]: a key of a dict, an element of a list,
    a substring of a string; the other values are not containers. *)
Definition py_contains (key : string) (d : json) : result bool :=
  match d with
  | JObj m => Ok (bool_decide (is_Some (m !! key)))
  | JArr l => Ok (existsb (is_str key) l)
  | JStr s => Ok (is_substring key s)
  | _ => Raise TypeError
  end.

(** [d[key]] for a string [key]. *)
Definition py_getitem (key : string) (d : json) : result json :=
  match d with
  | JObj m =>
      match m !! key with
      | Some v => Ok v
      | None => Raise KeyError
      end
  | _ => Raise TypeError
  end.

(** [int(f)] for a float: the value with its fraction dropped. *)
Definition int_of_float (f : spec_float) : result Z :=
  match f with
  | S754_zero _ => Ok 0
  | S754_infinity _ => Raise OverflowError
  | S754_nan => Raise ValueError
  | S754_finite s m e =>
      let magnitude := Z.shiftl (Z.pos m) e in
      Ok (if s then - magnitude else magnitude)
  end.

(** ** An instance of [int] on strings: ASCII decimal literals

    Blanks around the literal are dropped, one sign is allowed, and the
    digits may be separated by single underscores.  This is Python's
    [int] on the strings made of ASCII characters with fewer digits than
    the interpreter's limit (4300 by default since 3.11); Python also
    reads the decimal digits of other scripts and refuses longer
    literals.  The handlers below do not depend on it: they take [int] on
    strings as a parameter, and this instance only serves to run them on
    short ASCII strings. *)
Definition is_blank (c : ascii) : bool :=
  let n := nat_of_ascii c in
  ((9 <=? n) && (n <=? 13) || (28 <=? n) && (n <=? 32))%nat.

Fixpoint lstrip (s : string) : string :=
  match s with
  | String c s' => if is_blank c then lstrip s' else s
  | EmptyString => EmptyString
  end.

Fixpoint rstrip (s : string) : string :=
  match s with
  | String c s' =>
      match rstrip s' with
      | EmptyString => if is_blank c then EmptyString else String c EmptyString
      | r => String c r
      end
  | EmptyString => EmptyString
  end.

Definition digit_of (c : ascii) : option Z :=
  let n := nat_of_ascii c in
  if ((48 <=? n) && (n <=? 57))%nat then Some (Z.of_nat n - 48) else None.

(** [after_digit] tells whether the previous character was a digit, the
    only place where an underscore or the end of the literal may stand. *)
Fixpoint digits (after_digit : bool) (acc : Z) (s : string) : option Z :=
  match s with
  | EmptyString => if after_digit then Some acc else None
  | String c s' =>
      match digit_of c with
      | Some d => digits true (10 * acc + d) s'
      | None =>
          if (Ascii.eqb c "_" && after_digit)%bool
          then match s' with
               | EmptyString => None
               | String c' _ =>
                   match digit_of c' with
                   | Some _ => digits false acc s'
                   | None => None
                   end
               end
          else None
      end
  end.

Definition ascii_int_of_str (s : string) : option Z :=
  match rstrip (lstrip s) with
  | String "-" s' => Z.opp <$> digits false 0 s'
  | String "+" s' => digits false 0 s'
  | s' => digits false 0 s'
  end.

(** ** Replies *)

(** What a handler hands back to Flask: [jsonify(body), status], or an
    exception that leaves the handler (Flask answers 500). *)
Inductive reply : Type :=
| Response (body : gmap string json) (status : Z)
| Uncaught (e : exn).

Definition status_of (r : reply) : Z :=
  match r with
  | Response _ st => st
  | Uncaught _ => 500
  end.

(** ** The background unit *)

(** Control points inside [calculate_fibonacci(iterations)].  [k] is the
    number of items already drawn from [range(iterations)]. *)
Inductive fib_frame : Type :=
| LoopHead (iterations a b : Z) (k : nat)   (* line 30: next item, line 31 *)
| Body (iterations a b : Z) (k : nat)       (* line 35 *)
| Returned (b : Z).                         (* line 37 *)

(** Line 28. *)
Definition calculate_fibonacci_enter (iterations : Z) : fib_frame :=
  LoopHead iterations 0 1 0.

(** One statement of [calculate_fibonacci]; [active] is the value of the
    global [cpu_load_active] that the statement reads. *)
Definition calculate_fibonacci_step (active : bool) (f : fib_frame) : fib_frame :=
  match f with
  | LoopHead iterations a b k =>
      if iterations <=? Z.of_nat k then Returned b        (* range exhausted *)
      else if negb active then Returned b                 (* break *)
      else Body iterations a b k
  | Body iterations a b k => LoopHead iterations b (a + b) (S k)
  | Returned b => Returned b
  end.

(** Control points of the thread whose target is
    [start_cpu_load_thread(iterations)]. *)
Inductive unit_state : Type :=
| Entry (iterations : Z)        (* started, before line 45 *)
| InCall (f : fib_frame)        (* line 47 *)
| Done.                         (* lines 48 and 49 have run: the thread has ended *)

(** One statement of [start_cpu_load_thread]: the flag it finds, the flag
    it leaves and its next control point.  The value returned by
    [calculate_fibonacci] is dropped by line 47. *)
Definition start_cpu_load_thread_step (active : bool) (u : unit_state)
  : bool * unit_state :=
  match u with
  | Entry iterations => (true, InCall (calculate_fibonacci_enter iterations))
  | InCall (Returned _) => (false, Done)
  | InCall f => (active, InCall (calculate_fibonacci_step active f))
  | Done => (active, Done)
  end.

Definition is_alive (u : unit_state) : bool :=
  match u with
  | Done => false
  | _ => true
  end.

(** The unit under interference: before its [i]-th statement the rest of
    the process may write the flag ([env i = Some v]) or leave it. *)
Fixpoint run_unit (env : nat -> option bool) (i steps : nat)
    (active : bool) (u : unit_state) : bool * unit_state :=
  match steps with
  | O => (active, u)
  | S steps' =>
      let seen := default active (env i) in
      let '(active', u') := start_cpu_load_thread_step seen u in
      run_unit env (S i) steps' active' u'
  end.

(** Statements the unit still has to run at most. *)
Definition budget (u : unit_state) : nat :=
  match u with
  | Entry iterations => 2 * Z.to_nat iterations + 3
  | InCall (LoopHead iterations _ _ k) => 2 * (Z.to_nat iterations - k) + 2
  | InCall (Body iterations _ _ k) => 2 * (Z.to_nat iterations - S k) + 3
  | InCall (Returned _) => 1
  | Done => 0
  end.

(** The Fibonacci numbers, [fib 0 = 0] and [fib 1 = 1]. *)
Fixpoint fib (n : nat) : Z :=
  match n with
  | O => 0
  | S n' =>
      match n' with
      | O => 1
      | S n'' => fib n' + fib n''
      end
  end.

(** The update of line 35. *)
Definition advance (p : Z * Z) : Z * Z := (snd p, fst p + snd p).

(** ** The shared state *)

Record state : Type := mkState {
  cpu_load_active : bool;           (* line 17 *)
  cpu_thread : option nat;          (* line 20: [None] or a thread of the pool *)
  threads : list unit_state         (* the Thread objects started so far *)
}.

Definition initial : state :=
  {| cpu_load_active := false; cpu_thread := None; threads := [] |}.

(** [cpu_thread is not None and cpu_thread.is_alive()] *)
Definition current_thread_alive (s : state) : bool :=
  match cpu_thread s with
  | None => false
  | Some t =>
      match threads s !! t with
      | Some u => is_alive u
      | None => false
      end
  end.

(** The scheduler lets thread [t] run one statement. *)
Definition run_thread (t : nat) (s : state) : state :=
  match threads s !! t with
  | Some u =>
      let '(active', u') := start_cpu_load_thread_step (cpu_load_active s) u in
      {| cpu_load_active := active';
         cpu_thread := cpu_thread s;
         threads := <[t := u']> (threads s) |}
  | None => s
  end.

(** ** Concrete requests, states and schedules *)

(** Line 13: the default when the environment does not set the variable. *)
Definition default_FIB_ITERATIONS : Z := 500000.

(** The body [{"iterations": v}]. *)
Definition iterations_body (v : json) : option json :=
  Some (JObj {[ "iterations" := v ]}).

(** The double 2.5, that is 5629499534213120 * 2^(-51). *)
Definition float_2_5 : spec_float := S754_finite false 5629499534213120 (-51).

(** A state in which a first unit has been started and has set the flag. *)
Definition busy : state :=
  {| cpu_load_active := true;
     cpu_thread := Some 0%nat;
     threads := [InCall (calculate_fibonacci_enter 7)] |}.

(** A state with two live units: the first was asked for one iteration
    and has returned, the second stands at its first boundary. *)
Definition two_units : state :=
  {| cpu_load_active := true;
     cpu_thread := Some 1%nat;
     threads := [InCall (Returned 1); InCall (calculate_fibonacci_enter 5)] |}.

(** Nothing else writes the flag. *)
Definition quiet : nat -> option bool := fun _ => None.

(** The flag is cleared (a stop request) just before statement [j]. *)
Definition stop_before (j : nat) : nat -> option bool :=
  fun i => if Nat.eqb i j then Some false else None.

(** Closed facts are settled by running the embedding. *)
Ltac by_evaluation := vm_compute; reflexivity.


(** ** The request handlers *)

Section App.

(** Line 13: the default iteration count, read from the environment when
    the module is loaded and never assigned again. *)
Variable FIB_ITERATIONS : Z.

(** Python's [int] on a [str]: the integer the string denotes, or [None]
    where [int] raises [ValueError].  The handlers are embedded for every
    such function; [ascii_int_of_str] is one. *)
Variable int_of_str : string -> option Z.

(** [int(v)] *)
Definition py_int (v : json) : result Z :=
  match v with
  | JBool b => Ok (if b then 1 else 0)
  | JInt z => Ok z
  | JFloat f => int_of_float f
  | JStr s =>
      match int_of_str s with
      | Some z => Ok z
      | None => Raise ValueError
      end
  | JNull | JArr _ | JObj _ => Raise TypeError
  end.

(** Line 61. *)
Definition health_check (s : state) : reply * state :=
  (Response {[ "status" := JStr "OK" ]} 200, s).

Definition positive_error : reply :=
  Response {[ "error" := JStr "Iterations must be a positive integer." ]} 400.

Definition invalid_error : reply :=
  Response {[ "error" := JStr "Invalid 'iterations' value. Must be an integer." ]} 400.

(** Line 79: [data and 'iterations' in data].  [None] is what
    [get_json(silent=True)] gives for a body that is missing or is not
    JSON. *)
Definition supplies_iterations (data : option json) : result bool :=
  match data with
  | None => Ok false
  | Some d => if truthy d then py_contains "iterations" d else Ok false
  end.

(** Lines 77 to 85: the iteration count to run with ([inr]), or the reply
    of an early [return] ([inl]); [Raise] where an exception other than
    [ValueError] leaves the [try] block. *)
Definition resolve_iterations (data : option json) : result (reply + Z) :=
  supplied ← supplies_iterations data;
  if supplied : bool then
    match (v ← py_getitem "iterations" (default JNull data); py_int v) with
    | Ok iterations =>
        if iterations <=? 0 then Ok (inl positive_error) else Ok (inr iterations)
    | Raise ValueError => Ok (inl invalid_error)
    | Raise e => Raise e
    end
  else Ok (inr FIB_ITERATIONS).

Definition started_message (iterations : Z) : string :=
  "CPU-intensive task started with " +:+ pretty iterations +:+ " iterations.".

(** Lines 64 to 92.  Line 89 makes a new Thread object and stores it in
    [cpu_thread]; line 90 starts it: the new thread stands before the
    first statement of [start_cpu_load_thread]. *)
Definition start_cpu_intensive (data : option json) (s : state) : reply * state :=
  if cpu_load_active s then
    (Response {[ "message" := JStr "CPU load already active." ]} 409, s)
  else
    match resolve_iterations data with
    | Raise e => (Uncaught e, s)
    | Ok (inl early) => (early, s)
    | Ok (inr iterations) =>
        (Response {[ "message" := JStr (started_message iterations) ]} 202,
         {| cpu_load_active := cpu_load_active s;
            cpu_thread := Some (length (threads s));
            threads := threads s ++ [Entry iterations] |})
    end.

(** Lines 95 to 113. *)
Definition stop_cpu_intensive (s : state) : reply * state :=
  if negb (cpu_load_active s) then
    (Response {[ "message" := JStr "No CPU load active." ]} 200, s)
  else
    (Response {[ "message" := JStr "Signal sent to stop CPU-intensive task." ]} 200,
     {| cpu_load_active := false;
        cpu_thread := cpu_thread s;
        threads := threads s |}).

(** Lines 116 to 128. *)
Definition get_cpu_load_status (s : state) : reply * state :=
  let status := if cpu_load_active s then "active" else "inactive" in
  let message := if cpu_load_active s then "CPU load is currently active."
                 else "No CPU load is currently active." in
  (Response (<[ "status" := JStr status ]>
            (<[ "message" := JStr message ]>
            (<[ "fib_iterations_configured" := JInt FIB_ITERATIONS ]>
            {[ "current_thread_alive" := JBool (current_thread_alive s) ]}))) 200,
   s).

(** ** The process: requests and scheduling *)

Inductive request : Type :=
| GET_health
| POST_start_cpu_intensive (data : option json)
| POST_stop_cpu_intensive
| GET_status_cpu_load.

Definition handle (r : request) (s : state) : reply * state :=
  match r with
  | GET_health => health_check s
  | POST_start_cpu_intensive data => start_cpu_intensive data s
  | POST_stop_cpu_intensive => stop_cpu_intensive s
  | GET_status_cpu_load => get_cpu_load_status s
  end.

(** What happens next in the process: a request is served, or the
    scheduler gives one statement to a background thread. *)
Inductive event : Type :=
| Serve (r : request)
| Sched (t : nat).

Definition exec (e : event) (s : state) : option reply * state :=
  match e with
  | Serve r => let '(rep, s') := handle r s in (Some rep, s')
  | Sched t => (None, run_thread t s)
  end.

(** A history of the process: the replies given, oldest first, and the
    state reached. *)
Fixpoint run (es : list event) (s : state) : list reply * state :=
  match es with
  | [] => ([], s)
  | e :: es' =>
      let '(r, s') := exec e s in
      let '(rs, s'') := run es' s' in
      (from_option (fun rep => rep :: rs) rs r, s'')
  end.

Definition final (es : list event) (s : state) : state := snd (run es s).

(** ** Notions used by the further properties *)

(** Lines 9 and 13: [int(os.getenv(key, default))].  The variable, when
    set, is a string that [int] has to read; the default is an integer
    already. *)
Definition getenv_int (environ : gmap string string) (key : string)
    (default_value : Z) : result Z :=
  match environ !! key with
  | Some text =>
      match int_of_str text with
      | Some z => Ok z
      | None => Raise ValueError
      end
  | None => Ok default_value
  end.

(** The module-level assignments of lines 9 and 13, in that order: the
    pair [(PORT, FIB_ITERATIONS)], or the exception that stops the
    import. *)
Definition load_config (environ : gmap string string) : result (Z * Z) :=
  port ← getenv_int environ "PORT" 5000;
  fib_iterations ← getenv_int environ "FIB_ITERATIONS" 500000;
  Ok (port, fib_iterations).

(** The requests whose handlers only read. *)
Definition observational (e : event) : bool :=
  match e with
  | Serve GET_health | Serve GET_status_cpu_load => true
  | _ => false
  end.

(** The replies that announce a started task. *)
Definition accepted (r : reply) : bool := status_of r =? 202.

(** Whether the next statement of the unit is the update of line 35. *)
Definition at_update (u : unit_state) : bool :=
  match u with
  | InCall (Body _ _ _ _) => true
  | _ => false
  end.

(** The number of updates (runs of line 35) among the first [j]
    statements of a unit started in [u0]. *)
Fixpoint updates_made (env : nat -> option bool) (j : nat) (active : bool)
    (u0 : unit_state) : nat :=
  match j with
  | O => O
  | S j' =>
      (updates_made env j' active u0 +
       (if at_update (snd (run_unit env 0 j' active u0)) then 1 else 0))%nat
  end.

(** What a unit asked for [n] iterations holds when it has made [k]
    updates: the Fibonacci numbers of index [k] and [k + 1], a loop
    counter equal to [k], and, once [calculate_fibonacci] has returned,
    the return value [fib (k + 1)]. *)
Definition unit_after_updates (n : Z) (k : nat) (u : unit_state) : Prop :=
  match u with
  | Entry n' => n' = n /\ k = O
  | InCall (LoopHead n' a b k') =>
      n' = n /\ k' = k /\ a = fib k /\ b = fib (S k) /\ (k <= Z.to_nat n)%nat
  | InCall (Body n' a b k') =>
      n' = n /\ k' = k /\ a = fib k /\ b = fib (S k) /\ (k < Z.to_nat n)%nat
  | InCall (Returned b) => b = fib (S k) /\ (k <= Z.to_nat n)%nat
  | Done => (k <= Z.to_nat n)%nat
  end.

(** A client that waits, after each start request, until the new thread
    has run its first statement, and that never asks to stop. *)
Inductive action : Type :=
| AStart (data : option json)
| AHealth
| AStatus
| ARun (t : nat).

(** The events of such a client's actions, from state [s] on. *)
Definition events_of (a : action) (s : state) : list event :=
  match a with
  | AStart data => [Serve (POST_start_cpu_intensive data); Sched (length (threads s))]
  | AHealth => [Serve GET_health]
  | AStatus => [Serve GET_status_cpu_load]
  | ARun t => [Sched t]
  end.

Fixpoint script (acts : list action) (s : state) : list event :=
  match acts with
  | [] => []
  | a :: acts' => events_of a s ++ script acts' (final (events_of a s) s)
  end.

(** At most one unit is between line 45 and line 48, the handle
    designates it and the flag is set; the flag is set only then; and no
    thread is left before line 45. *)
Definition one_working_unit (s : state) : Prop :=
  (forall t f, threads s !! t = Some (InCall f) ->
     cpu_load_active s = true /\ cpu_thread s = Some t) /\
  (cpu_load_active s = true ->
     exists t f, cpu_thread s = Some t /\ threads s !! t = Some (InCall f)) /\
  (forall t n, threads s !! t <> Some (Entry n)).

(** ** The background unit: lemmas *)

Lemma run_unit_S env i steps active u :
  run_unit env i (S steps) active u =
    (let '(active', u') := start_cpu_load_thread_step (default active (env i)) u in
     run_unit env (S i) steps active' u').
Proof. reflexivity. Qed.

Lemma run_unit_snoc env steps : forall i active u,
  run_unit env i (S steps) active u =
    (let '(f, u') := run_unit env i steps active u in
     start_cpu_load_thread_step (default f (env (i + steps)%nat)) u').
Proof.
  induction steps as [|steps IH]; intros i active u.
  - cbn [run_unit]. rewrite Nat.add_0_r.
    destruct (start_cpu_load_thread_step _ u); reflexivity.
  - rewrite (run_unit_S env i (S steps)), (run_unit_S env i steps).
    destruct (start_cpu_load_thread_step (default active (env i)) u) as [a' u'].
    rewrite IH. replace (S i + steps)%nat with (i + S steps)%nat by lia.
    reflexivity.
Qed.

(** A statement either ends the thread, leaving the flag false, or leaves
    fewer statements to run. *)
Lemma step_budget seen u :
  is_alive u = true ->
  start_cpu_load_thread_step seen u = (false, Done) \/
  (is_alive (snd (start_cpu_load_thread_step seen u)) = true /\
   (budget (snd (start_cpu_load_thread_step seen u)) < budget u)%nat).
Proof.
  destruct u as [n|[n a b k|n a b k|b]|]; cbn; intros Halive.
  - right. split; [reflexivity | lia].
  - right. destruct (Z.leb_spec n (Z.of_nat k)); cbn.
    + split; [reflexivity | lia].
    + destruct seen; cbn; (split; [reflexivity | lia]).
  - right. split; [reflexivity | lia].
  - left. reflexivity.
  - discriminate.
Qed.

Lemma unit_finishes env : forall m u i active,
  (budget u <= m)%nat -> is_alive u = true ->
  exists j, (1 <= j <= budget u)%nat /\
    run_unit env i j active u = (false, Done) /\
    forall j', (j' < j)%nat -> is_alive (snd (run_unit env i j' active u)) = true.
Proof.
  induction m as [|m IH]; intros u i active Hm Halive.
  - destruct u as [n|[n a b k|n a b k|b]|]; cbn in Hm; try lia. discriminate.
  - destruct (step_budget (default active (env i)) u Halive) as [Hend|[Hal Hlt]].
    + exists 1%nat. split; [|split].
      * destruct u as [n|[n a b k|n a b k|b]|]; cbn; try lia. discriminate.
      * cbn [run_unit]. rewrite Hend. reflexivity.
      * intros j' Hj'. assert (j' = 0)%nat as -> by lia. exact Halive.
    + destruct (start_cpu_load_thread_step (default active (env i)) u)
        as [a' u'] eqn:Hstep. cbn [snd] in Hal, Hlt.
      destruct (IH u' (S i) a' ltac:(lia) Hal) as (j & Hj & Hrun & Hbefore).
      exists (S j). split; [lia|split].
      * cbn [run_unit]. rewrite Hstep. exact Hrun.
      * intros [|j'] Hj'; [exact Halive|].
        cbn [run_unit]. rewrite Hstep. apply Hbefore. lia.
Qed.

Lemma fib_SS n : fib (S (S n)) = fib (S n) + fib n.
Proof. reflexivity. Qed.

Lemma advance_fib n : Nat.iter n advance (0, 1) = (fib n, fib (S n)).
Proof.
  induction n as [|n IH]; [reflexivity|].
  change (Nat.iter (S n) advance (0, 1)) with (advance (Nat.iter n advance (0, 1))).
  rewrite IH. unfold advance. cbn [fst snd].
  rewrite fib_SS. f_equal. lia.
Qed.

Lemma undisturbed_seen (env : nat -> option bool) i :
  env i <> Some false -> default true (env i) = true.
Proof. destruct (env i) as [[|]|]; cbn; congruence. Qed.

(** While the flag stays set, the unit stands at boundary [k] after
    [2 * k + 1] statements, with the pair advanced [k] times. *)
Lemma run_unit_boundary env (n : nat) active :
  (forall i, env i <> Some false) ->
  forall k, (k <= n)%nat ->
  run_unit env 0 (2 * k + 1) active (Entry (Z.of_nat n)) =
    (true, InCall (LoopHead (Z.of_nat n) (fib k) (fib (S k)) k)).
Proof.
  intros Henv. induction k as [|k IH]; intros Hk.
  - reflexivity.
  - replace (2 * S k + 1)%nat with (S (S (2 * k + 1))) by lia.
    rewrite run_unit_snoc, run_unit_snoc, IH by lia.
    rewrite undisturbed_seen by apply Henv. cbn.
    destruct (Z.leb_spec (Z.of_nat n) (Z.of_nat k)); [lia|]. cbn.
    rewrite undisturbed_seen by apply Henv.
    rewrite (Z.add_comm (fib k)). reflexivity.
Qed.

(** ** The background unit: claims *)

(** C3.  For every iteration count [n], whatever the rest of the process
    writes to the flag and whenever it does so: (1) a unit that stands at
    an iteration boundary and reads a cleared flag leaves the loop with
    that very statement, keeping [b] as it is, and ends with its next
    statement, without any error state; (2) an update of the pair is made
    only right after a boundary at which the flag was read and found set;
    (3) the unit always ends, after at most [2 * n + 3] statements, and
    the statement that ends it leaves the flag false, whether the loop ran
    out of items or was left early. *)
Theorem unit_checks_flag_and_clears_it :
  forall (n : Z) (env : nat -> option bool) (active : bool),
    (forall i f a b k,
        run_unit env 0 i active (Entry n) = (f, InCall (LoopHead n a b k)) ->
        default f (env i) = false ->
        run_unit env 0 (S i) active (Entry n) = (false, InCall (Returned b)) /\
        run_unit env 0 (S (S i)) active (Entry n) = (false, Done)) /\
    (forall i f a b k,
        run_unit env 0 (S i) active (Entry n) = (f, InCall (Body n a b k)) ->
        f = true /\
        exists f0, run_unit env 0 i active (Entry n) = (f0, InCall (LoopHead n a b k)) /\
                   default f0 (env i) = true) /\
    (exists j, (1 <= j <= 2 * Z.to_nat n + 3)%nat /\
        run_unit env 0 j active (Entry n) = (false, Done) /\
        forall j', (j' < j)%nat ->
          is_alive (snd (run_unit env 0 j' active (Entry n))) = true).
Proof.
  intros n env active. split; [|split].
  - intros i f a b k Hrun Hseen.
    assert (run_unit env 0 (S i) active (Entry n) = (false, InCall (Returned b)))
      as Hleft.
    { rewrite run_unit_snoc, Hrun, Nat.add_0_l, Hseen. cbn.
      destruct (n <=? Z.of_nat k); reflexivity. }
    split; [exact Hleft|]. rewrite run_unit_snoc, Hleft. reflexivity.
  - intros i f a b k Hrun.
    rewrite run_unit_snoc, Nat.add_0_l in Hrun.
    destruct (run_unit env 0 i active (Entry n)) as [f0 u0].
    destruct u0 as [n0|[n0 a0 b0 k0|n0 a0 b0 k0|b0]|]; cbn in Hrun;
      try discriminate.
    destruct (n0 <=? Z.of_nat k0); [discriminate|].
    destruct (default f0 (env i)) eqn:Hseen; cbn in Hrun; [|discriminate].
    injection Hrun as <- <- <- <- <-. split; [reflexivity|].
    exists f0. split; [reflexivity | exact Hseen].
  - apply (unit_finishes env (budget (Entry n)) (Entry n) 0%nat active);
      [lia | reflexivity].
Qed.


(** C9.  For every iteration count [n], when the flag stays set during the
    run, the computation draws exactly [n] items and advances the pair
    [(a, b) <- (b, a + b)] exactly [n] times from [(0, 1)], in unbounded
    integers; it returns [b], the Fibonacci number of index [n + 1]; the
    caller drops that value, whatever it is, and ends. *)
Theorem fibonacci_advances_n_times :
  forall (n : nat) (env : nat -> option bool) (active : bool),
    (forall i, env i <> Some false) ->
    run_unit env 0 (2 * n + 1) active (Entry (Z.of_nat n)) =
      (true, InCall (LoopHead (Z.of_nat n)
                       (fst (Nat.iter n advance (0, 1)))
                       (snd (Nat.iter n advance (0, 1))) n)) /\
    run_unit env 0 (2 * n + 2) active (Entry (Z.of_nat n)) =
      (true, InCall (Returned (fib (S n)))) /\
    snd (Nat.iter n advance (0, 1)) = fib (S n) /\
    (forall seen b, start_cpu_load_thread_step seen (InCall (Returned b)) = (false, Done)).
Proof.
  intros n env active Henv.
  assert (run_unit env 0 (2 * n + 1) active (Entry (Z.of_nat n)) =
            (true, InCall (LoopHead (Z.of_nat n) (fib n) (fib (S n)) n))) as Hhead
    by (apply run_unit_boundary; [exact Henv | lia]).
  rewrite advance_fib. cbn [fst snd]. split; [exact Hhead|split; [|split]].
  - replace (2 * n + 2)%nat with (S (2 * n + 1)) by lia.
    rewrite run_unit_snoc, Hhead, undisturbed_seen by apply Henv. cbn.
    rewrite Z.leb_refl. reflexivity.
  - reflexivity.
  - reflexivity.
Qed.


(** ** The request handlers: lemmas *)

(** A dict that has the key is not empty, so line 79 holds. *)
Lemma supplies_iterations_dict (m : gmap string json) v :
  m !! "iterations" = Some v ->
  supplies_iterations (Some (JObj m)) = Ok true.
Proof.
  intros Hv. unfold supplies_iterations, truthy, py_contains.
  destruct (Nat.eqb_spec (size m) 0) as [Hsize|_].
  - apply map_size_empty_iff in Hsize. subst m.
    rewrite lookup_empty in Hv. discriminate.
  - cbn [negb]. rewrite bool_decide_eq_true_2; [reflexivity|]. eauto.
Qed.

Lemma resolve_iterations_dict (m : gmap string json) v :
  m !! "iterations" = Some v ->
  resolve_iterations (Some (JObj m)) =
    match py_int v with
    | Ok iterations =>
        if iterations <=? 0 then Ok (inl positive_error) else Ok (inr iterations)
    | Raise ValueError => Ok (inl invalid_error)
    | Raise e => Raise e
    end.
Proof.
  intros Hv. unfold resolve_iterations.
  rewrite (supplies_iterations_dict m v Hv). cbn. rewrite Hv. reflexivity.
Qed.

Lemma resolve_iterations_absent : resolve_iterations None = Ok (inr FIB_ITERATIONS).
Proof. reflexivity. Qed.

(** Lines 87 to 92: what the handler does once the count is resolved. *)
Lemma start_accepts s data iterations :
  cpu_load_active s = false ->
  resolve_iterations data = Ok (inr iterations) ->
  start_cpu_intensive data s =
    (Response {[ "message" := JStr (started_message iterations) ]} 202,
     {| cpu_load_active := false;
        cpu_thread := Some (length (threads s));
        threads := threads s ++ [Entry iterations] |}).
Proof.
  intros Hidle Hres. unfold start_cpu_intensive.
  rewrite Hidle, Hres. reflexivity.
Qed.



Lemma final_cons e es s : final (e :: es) s = final es (snd (exec e s)).
Proof.
  unfold final. cbn [run].
  destruct (exec e s) as [r s']. cbn [snd].
  destruct (run es s') as [rs s'']. reflexivity.
Qed.


(** ** The request handlers: claims *)

(** C1 (amended).  For every POST /start_cpu_intensive request that is
    served while no task is active and whose JSON object carries an
    ['iterations'] value [v]: if [int(v)] is an integer that is not
    strictly positive, the reply is 400 with
    [{"error": "Iterations must be a positive integer."}]; if [int(v)]
    raises [ValueError], the reply is 400 with
    [{"error": "Invalid 'iterations' value. Must be an integer."}]; in
    both cases the flag, the handle and the threads are as before: no
    unit is spawned. *)
Theorem start_rejects_bad_iterations :
  forall (s : state) (m : gmap string json) (v : json) (r : reply),
    cpu_load_active s = false ->
    m !! "iterations" = Some v ->
    (exists z, py_int v = Ok z /\ z <= 0 /\ r = positive_error) \/
      (py_int v = Raise ValueError /\ r = invalid_error) ->
    start_cpu_intensive (Some (JObj m)) s = (r, s) /\ status_of r = 400.
Proof.
  intros s m v r Hidle Hv Hbad. unfold start_cpu_intensive.
  rewrite Hidle, (resolve_iterations_dict m v Hv).
  destruct Hbad as [(z & -> & Hz & ->)|[-> ->]].
  - destruct (Z.leb_spec z 0); [|lia]. split; reflexivity.
  - split; reflexivity.
Qed.

(** C4.  For every POST /start_cpu_intensive request that is served while
    a task is active, whatever its body (none, not JSON, or JSON with any
    ['iterations'] value), the reply is 409 with
    [{"message": "CPU load already active."}] and the state is as before:
    the body is not looked at, so it cannot yield a 400. *)
Theorem start_conflict_when_active :
  forall (s : state) (data : option json),
    cpu_load_active s = true ->
    start_cpu_intensive data s =
      (Response {[ "message" := JStr "CPU load already active." ]} 409, s).
Proof.
  intros s data Hactive. unfold start_cpu_intensive. rewrite Hactive. reflexivity.
Qed.

(** C6.  In every state whose flag is false, POST /stop_cpu_intensive
    leaves the state (flag, handle and threads) as it is and replies 200
    with [{"message": "No CPU load active."}]; a second call gives the
    same reply and the same state. *)
Theorem stop_when_inactive_is_noop :
  forall s : state,
    cpu_load_active s = false ->
    stop_cpu_intensive s =
      (Response {[ "message" := JStr "No CPU load active." ]} 200, s) /\
    stop_cpu_intensive (snd (stop_cpu_intensive s)) = stop_cpu_intensive s.
Proof.
  intros s Hidle.
  assert (stop_cpu_intensive s =
            (Response {[ "message" := JStr "No CPU load active." ]} 200, s)) as Hstop
    by (unfold stop_cpu_intensive; rewrite Hidle; reflexivity).
  split; [exact Hstop|]. rewrite Hstop. cbn [snd]. exact Hstop.
Qed.

(** C7.  In every state whose flag is true, POST /stop_cpu_intensive sets
    the flag to false and replies 200 with
    [{"message": "Signal sent to stop CPU-intensive task."}]; it runs no
    statement of a background unit: handle and threads are as before, so
    a unit that was alive is still alive when the reply is given. *)
Theorem stop_when_active_signals :
  forall s : state,
    cpu_load_active s = true ->
    stop_cpu_intensive s =
      (Response {[ "message" := JStr "Signal sent to stop CPU-intensive task." ]} 200,
       {| cpu_load_active := false;
          cpu_thread := cpu_thread s;
          threads := threads s |}) /\
    current_thread_alive (snd (stop_cpu_intensive s)) = current_thread_alive s.
Proof.
  intros s Hactive. unfold stop_cpu_intensive. rewrite Hactive. split; reflexivity.
Qed.

(** C8.  In every state, GET /status_cpu_load leaves the state as it is
    and replies 200; the ["status"] field is ["active"] exactly when the
    flag is true and ["inactive"] exactly when it is false; the
    ["fib_iterations_configured"] field is the configured default
    [FIB_ITERATIONS], also in the state that a start request with any
    body, hence any override, has just left. *)
Theorem status_reports_flag_and_default :
  forall s : state,
    (exists body,
        get_cpu_load_status s = (Response body 200, s) /\
        (body !! "status" = Some (JStr "active") <-> cpu_load_active s = true) /\
        (body !! "status" = Some (JStr "inactive") <-> cpu_load_active s = false) /\
        body !! "fib_iterations_configured" = Some (JInt FIB_ITERATIONS)) /\
    (forall data, exists body,
        fst (get_cpu_load_status (snd (start_cpu_intensive data s))) = Response body 200 /\
        body !! "fib_iterations_configured" = Some (JInt FIB_ITERATIONS)).
Proof.
  intros s. split.
  - eexists. split; [reflexivity|].
    rewrite lookup_insert_eq, !lookup_insert_ne, lookup_insert_eq by done.
    destruct (cpu_load_active s); repeat split; congruence.
  - intros data. eexists. split; [reflexivity|].
    rewrite !lookup_insert_ne, lookup_insert_eq by done. reflexivity.
Qed.


(** ** Further properties of the background unit *)

Lemma step_after_updates n k seen u :
  unit_after_updates n k u ->
  unit_after_updates n (k + (if at_update u then 1 else 0))
    (snd (start_cpu_load_thread_step seen u)).
Proof.
  destruct u as [n'|[n' a b k'|n' a b k'|b]|]; cbn -[fib]; intros Hinv;
    rewrite ?Nat.add_0_r.
  - destruct Hinv as [-> ->]. repeat split. lia.
  - destruct Hinv as (-> & -> & -> & -> & Hk).
    destruct (Z.leb_spec n (Z.of_nat k)); cbn -[fib]; [split; [reflexivity|lia]|].
    destruct seen; cbn -[fib]; [repeat split; lia | split; [reflexivity|lia]].
  - destruct Hinv as (-> & -> & -> & -> & Hk).
    rewrite Nat.add_1_r.
    split; [reflexivity|]. split; [reflexivity|]. split; [reflexivity|].
    split; [|lia]. rewrite fib_SS. lia.
  - destruct Hinv as [_ Hk]. exact Hk.
  - exact Hinv.
Qed.

(** X1.  Whatever is written to the flag while it runs, and after any
    number [j] of its statements, a unit asked for [n] iterations that
    has run line 35 [k] times so far has [k <= n], its loop counter is
    [k], it holds [(a, b) = (fib k, fib (k + 1))], and when
    [calculate_fibonacci] has returned, the value it returned is
    [fib (k + 1)]. *)
Theorem unit_holds_fibonacci_numbers :
  forall (n : Z) (env : nat -> option bool) (active : bool) (j : nat),
    unit_after_updates n (updates_made env j active (Entry n))
      (snd (run_unit env 0 j active (Entry n))).
Proof.
  intros n env active j. induction j as [|j IH]; [split; reflexivity|].
  cbn [updates_made]. rewrite run_unit_snoc.
  destruct (run_unit env 0 j active (Entry n)) as [f u]. cbn [snd] in IH |- *.
  apply step_after_updates, IH.
Qed.

Lemma cleared_seen (env : nat -> option bool) i :
  env i <> Some true -> default false (env i) = false.
Proof. destruct (env i) as [[|]|]; cbn; congruence. Qed.

(** X2.  Once the flag is false and nothing sets it again, a unit that
    has passed line 45 ends within three of its statements, wherever it
    stands in the loop, and leaves the flag false. *)
Theorem cleared_flag_ends_unit_in_three :
  forall (env : nat -> option bool) (i : nat) (active : bool) (f : fib_frame),
    (forall j, env j <> Some true) ->
    default active (env i) = false ->
    run_unit env i 3 active (InCall f) = (false, Done).
Proof.
  intros env i active f Henv Hseen.
  assert (forall j, default false (env j) = false) as Hcleared
    by (intros j; apply cleared_seen, Henv).
  assert (forall n a b k,
            start_cpu_load_thread_step false (InCall (LoopHead n a b k)) =
              (false, InCall (Returned b))) as Hhead
    by (intros n a b k; cbn; destruct (n <=? Z.of_nat k); reflexivity).
  destruct f as [n a b k|n a b k|b]; rewrite run_unit_S, Hseen.
  - rewrite Hhead. cbv beta iota.
    rewrite run_unit_S, Hcleared. cbn [start_cpu_load_thread_step]. cbv beta iota.
    rewrite run_unit_S, Hcleared. reflexivity.
  - cbn [start_cpu_load_thread_step calculate_fibonacci_step]. cbv beta iota.
    rewrite run_unit_S, Hcleared, Hhead. cbv beta iota.
    rewrite run_unit_S, Hcleared. reflexivity.
  - cbn [start_cpu_load_thread_step]. cbv beta iota.
    rewrite run_unit_S, Hcleared. cbn [start_cpu_load_thread_step]. cbv beta iota.
    rewrite run_unit_S, Hcleared. reflexivity.
Qed.

(** X3.  A unit asked for zero or a negative number of iterations makes
    no update: its second statement finds the range empty and returns 1,
    its third one ends it with the flag false, whatever the flag was. *)
Theorem nonpositive_count_runs_no_update :
  forall (n : Z) (env : nat -> option bool) (active : bool),
    n <= 0 ->
    snd (run_unit env 0 2 active (Entry n)) = InCall (Returned 1) /\
    run_unit env 0 3 active (Entry n) = (false, Done).
Proof.
  intros n env active Hn. cbn. change (Z.of_nat 0) with 0.
  destruct (Z.leb_spec n 0); [|lia]. split; reflexivity.
Qed.

(** ** Further properties of the start handler *)

Lemma start_outcome (data : option json) (s : state) :
  (exists n,
      status_of (fst (start_cpu_intensive data s)) = 202 /\
      snd (start_cpu_intensive data s) =
        {| cpu_load_active := cpu_load_active s;
           cpu_thread := Some (length (threads s));
           threads := threads s ++ [Entry n] |}) \/
  ((status_of (fst (start_cpu_intensive data s)) = 400 \/
    status_of (fst (start_cpu_intensive data s)) = 409 \/
    status_of (fst (start_cpu_intensive data s)) = 500) /\
   snd (start_cpu_intensive data s) = s).
Proof.
  unfold start_cpu_intensive.
  destruct (cpu_load_active s) eqn:Hflag.
  - right. split; [right; left|]; reflexivity.
  - destruct (resolve_iterations data) as [[early|n]|e] eqn:Hres.
    + right. split; [left|reflexivity].
      unfold resolve_iterations in Hres.
      destruct (supplies_iterations data) as [[|]|]; cbn in Hres; try discriminate.
      destruct (_ ≫= _) as [z|[]]; try discriminate.
      * destruct (z <=? 0); [|discriminate]. injection Hres as <-. reflexivity.
      * injection Hres as <-. reflexivity.
    + left. exists n. split; reflexivity.
    + right. split; [right; right|]; reflexivity.
Qed.

(** X4.  A start request never writes the flag, and it changes the state
    only when it is answered 202: then one unit is added to the pool and
    the handle designates it; with any other answer (400, 409, or 500 for
    an exception that leaves the handler) the state is as before. *)
Theorem start_changes_state_only_with_202 :
  forall (data : option json) (s : state),
    cpu_load_active (snd (start_cpu_intensive data s)) = cpu_load_active s /\
    ((exists n,
        status_of (fst (start_cpu_intensive data s)) = 202 /\
        snd (start_cpu_intensive data s) =
          {| cpu_load_active := cpu_load_active s;
             cpu_thread := Some (length (threads s));
             threads := threads s ++ [Entry n] |}) \/
     ((status_of (fst (start_cpu_intensive data s)) = 400 \/
       status_of (fst (start_cpu_intensive data s)) = 409 \/
       status_of (fst (start_cpu_intensive data s)) = 500) /\
      snd (start_cpu_intensive data s) = s)).
Proof.
  intros data s. split; [|apply start_outcome].
  destruct (start_outcome data s) as [(n & _ & ->)|[_ ->]];
    reflexivity.
Qed.

(** X5.  For a request served while no task is active whose JSON object
    carries an ['iterations'] value [v], the status of the reply is
    decided by [int(v)] alone: 202 exactly when [int(v)] is a strictly
    positive integer, 400 exactly when it is an integer that is not, or
    raises [ValueError], and 500 exactly when [int(v)] raises another
    exception; when it is 202 the unit is asked for [int(v)] iterations. *)
Theorem start_status_decided_by_int :
  forall (s : state) (m : gmap string json) (v : json),
    cpu_load_active s = false ->
    m !! "iterations" = Some v ->
    let out := start_cpu_intensive (Some (JObj m)) s in
    (status_of (fst out) = 202 <-> exists z, py_int v = Ok z /\ 0 < z) /\
    (status_of (fst out) = 400 <->
       (exists z, py_int v = Ok z /\ z <= 0) \/ py_int v = Raise ValueError) /\
    (status_of (fst out) = 500 <-> exists e, py_int v = Raise e /\ e <> ValueError) /\
    threads (snd out) =
      match py_int v with
      | Ok z => if 0 <? z then threads s ++ [Entry z] else threads s
      | Raise _ => threads s
      end.
Proof.
  intros s m v Hidle Hv out. subst out. unfold start_cpu_intensive.
  rewrite Hidle, (resolve_iterations_dict m v Hv).
  destruct (py_int v) as [z|e].
  - destruct (Z.leb_spec z 0); cbn.
    + repeat split; try discriminate.
      * intros (z' & Hz' & Hpos). injection Hz' as <-. lia.
      * intros _. left. exists z. split; [reflexivity|assumption].
      * intros (e & He & _). discriminate.
      * destruct (Z.ltb_spec 0 z); [lia|reflexivity].
    + repeat split; try discriminate.
      * intros _. exists z. split; [reflexivity|assumption].
      * intros [(z' & Hz' & Hneg)|Hraise]; [|discriminate].
        injection Hz' as <-. lia.
      * intros (e & He & _). discriminate.
      * destruct (Z.ltb_spec 0 z); [reflexivity|lia].
  - destruct e; cbn; repeat split; try discriminate;
      try (intros (z & Hz & _); discriminate);
      try (intros [(z & Hz & _)|Hraise]; discriminate);
      try (intros (e & He & Hne); congruence);
      try (intros _; eexists; split; [reflexivity|discriminate]);
      try (intros _; right; reflexivity).
Qed.

(** X6.  A request served while no task is active whose ['iterations']
    value is [null], an array or an object is not answered 400:
    [int] raises [TypeError], which line 84 does not catch, the exception
    leaves the handler (500) and the state is as before.  The same holds
    with [OverflowError] for an infinite number. *)
Theorem start_uncaught_for_non_numbers :
  forall (s : state) (m : gmap string json) (v : json) (e : exn),
    cpu_load_active s = false ->
    m !! "iterations" = Some v ->
    (v = JNull \/ (exists l, v = JArr l) \/ (exists m', v = JObj m')) /\ e = TypeError \/
      (exists sign, v = JFloat (S754_infinity sign)) /\ e = OverflowError ->
    start_cpu_intensive (Some (JObj m)) s = (Uncaught e, s).
Proof.
  intros s m v e Hidle Hv Hclass. unfold start_cpu_intensive.
  rewrite Hidle, (resolve_iterations_dict m v Hv).
  destruct Hclass as [[[->|[[l ->]|[m' ->]]] ->]|[[sign ->] ->]]; reflexivity.
Qed.

(** X7.  A request served while no task is active runs the configured
    default when it carries no usable body: no JSON body at all, a JSON
    value that Python holds false ([null], [false], 0, 0.0, the empty
    string, array or object), or an object without the key
    ['iterations']. *)
Theorem start_falls_back_to_default :
  forall (s : state) (data : option json),
    cpu_load_active s = false ->
    data = None \/ (exists d, data = Some d /\ truthy d = false) \/
      (exists m : gmap string json, data = Some (JObj m) /\ m !! "iterations" = None) ->
    start_cpu_intensive data s =
      (Response {[ "message" := JStr (started_message FIB_ITERATIONS) ]} 202,
       {| cpu_load_active := false;
          cpu_thread := Some (length (threads s));
          threads := threads s ++ [Entry FIB_ITERATIONS] |}).
Proof.
  intros s data Hidle Hdata. apply start_accepts; [exact Hidle|].
  destruct Hdata as [->|[(d & -> & Hfalse)|(m & -> & Hnone)]].
  - reflexivity.
  - unfold resolve_iterations, supplies_iterations. rewrite Hfalse. reflexivity.
  - unfold resolve_iterations, supplies_iterations, py_contains.
    destruct (truthy (JObj m)); [|reflexivity].
    rewrite bool_decide_eq_false_2; [reflexivity|].
    rewrite Hnone. intros [x Hx]. discriminate.
Qed.

(** X8.  A JSON body that is not an object is never answered 400 by a
    request served while no task is active: either the default is run, or
    line 79 or line 81 raises [TypeError] (500, state as before).  The
    second happens exactly when the value is one that Python holds true
    and it is a number or [true] (not a container), an array with the
    element ["iterations"], or a string with the substring
    ["iterations"]. *)
Theorem start_non_object_body :
  forall (s : state) (d : json),
    cpu_load_active s = false ->
    (forall m, d <> JObj m) ->
    (start_cpu_intensive (Some d) s = (Uncaught TypeError, s) \/
     start_cpu_intensive (Some d) s =
       (Response {[ "message" := JStr (started_message FIB_ITERATIONS) ]} 202,
        {| cpu_load_active := false;
           cpu_thread := Some (length (threads s));
           threads := threads s ++ [Entry FIB_ITERATIONS] |})) /\
    (start_cpu_intensive (Some d) s = (Uncaught TypeError, s) <->
       truthy d = true /\ py_contains "iterations" d <> Ok false).
Proof.
  intros s d Hidle Hobj.
  assert (start_cpu_intensive (Some d) s =
            if truthy d && negb (match py_contains "iterations" d with
                                 | Ok false => true
                                 | _ => false
                                 end)
            then (Uncaught TypeError, s)
            else (Response {[ "message" := JStr (started_message FIB_ITERATIONS) ]} 202,
                  {| cpu_load_active := false;
                     cpu_thread := Some (length (threads s));
                     threads := threads s ++ [Entry FIB_ITERATIONS] |})) as Hcases.
  { unfold start_cpu_intensive, resolve_iterations, supplies_iterations.
    rewrite Hidle.
    destruct d as [|b|z|fl|str|l|m]; try (exfalso; exact (Hobj m eq_refl));
      cbn [truthy py_contains]; try reflexivity.
    - destruct b; reflexivity.
    - destruct (negb (z =? 0)); reflexivity.
    - destruct fl; reflexivity.
    - destruct (negb (String.eqb str "")); [|reflexivity].
      destruct (is_substring "iterations" str); reflexivity.
    - destruct (negb (Nat.eqb (length l) 0)); [|reflexivity].
      destruct (existsb (is_str "iterations") l); reflexivity. }
  rewrite Hcases. clear Hcases.
  destruct (truthy d); cbn [andb].
  - destruct (py_contains "iterations" d) as [[|]|e]; cbn [negb].
    + split; [left; reflexivity|]. split; [intros _; split; [reflexivity|discriminate]|reflexivity].
    + split; [right; reflexivity|]. split; [discriminate|]. intros [_ Hne]. congruence.
    + split; [left; reflexivity|]. split; [intros _; split; [reflexivity|discriminate]|reflexivity].
  - split; [right; reflexivity|]. split; [discriminate|]. intros [Hf _]. discriminate.
Qed.

(** ** Further properties of histories *)

Lemma final_app es es' s : final (es ++ es') s = final es' (final es s).
Proof.
  revert s. induction es as [|e es IH]; intros s; [reflexivity|].
  cbn [app]. rewrite !final_cons. apply IH.
Qed.

Lemma run_cons e es s :
  fst (run (e :: es) s) =
    from_option (fun rep => rep :: fst (run es (snd (exec e s))))
                (fst (run es (snd (exec e s)))) (fst (exec e s)).
Proof.
  cbn [run]. destruct (exec e s) as [r s']. cbn [fst snd].
  destruct (run es s') as [rs s'']. destruct r; reflexivity.
Qed.

(** X9.  GET /health and GET /status_cpu_load leave no trace: the state
    that a history reaches is the one it reaches with all of these
    requests taken out. *)
Theorem observational_requests_leave_no_trace :
  forall (es : list event) (s : state),
    final (List.filter (fun e => negb (observational e)) es) s = final es s.
Proof.
  induction es as [|e es IH]; intros s; [reflexivity|].
  cbn [List.filter]. destruct (observational e) eqn:Hobs; cbn [negb].
  - rewrite final_cons, IH.
    destruct e as [[| | |]|t]; try discriminate; reflexivity.
  - rewrite !final_cons. apply IH.
Qed.

Lemma exec_serve r s :
  exec (Serve r) s = (Some (fst (handle r s)), snd (handle r s)).
Proof. cbn [exec]. destruct (handle r s); reflexivity. Qed.

Lemma exec_accounting e s :
  length (threads (snd (exec e s))) =
    (length (threads s) +
     from_option (fun rep => if accepted rep then 1 else 0) 0 (fst (exec e s)))%nat.
Proof.
  destruct e as [[|data| |]|t];
    rewrite ?exec_serve; cbn [fst snd handle from_option exec health_check
                              get_cpu_load_status].
  - cbn. lia.
  - destruct (start_outcome data s) as [(n & Hst & Hs)|[Hst Hs]].
    + rewrite Hs. cbn. rewrite length_app. unfold accepted. rewrite Hst. reflexivity.
    + rewrite Hs. unfold accepted.
      destruct Hst as [->|[->| ->]]; cbn; lia.
  - unfold stop_cpu_intensive. destruct (cpu_load_active s); cbn; lia.
  - cbn. lia.
  - unfold run_thread. destruct (threads s !! t) as [u|]; [|cbn; lia].
    destruct (start_cpu_load_thread_step (cpu_load_active s) u). cbn.
    rewrite length_insert. lia.
Qed.

(** X10.  Units are created by accepted start requests and by nothing
    else, and they are never taken out of the pool: after every history
    the pool has grown by exactly the number of replies with status 202. *)
Theorem one_unit_per_accepted_start :
  forall (es : list event) (s : state),
    length (threads (final es s)) =
      (length (threads s) + length (List.filter accepted (fst (run es s))))%nat.
Proof.
  induction es as [|e es IH]; intros s; [cbn; lia|].
  rewrite final_cons, IH, run_cons, (exec_accounting e s).
  destruct (fst (exec e s)) as [rep|]; cbn [from_option]; [|lia].
  cbn [List.filter]. destruct (accepted rep); cbn [length]; lia.
Qed.

(** The control point of a unit is moved by its own statements only. *)
Lemma exec_thread_frame e s t u :
  threads s !! t = Some u ->
  e <> Sched t ->
  threads (snd (exec e s)) !! t = Some u.
Proof.
  intros Hu Hne. destruct e as [[|data| |]|t'];
    rewrite ?exec_serve; cbn [fst snd handle exec health_check get_cpu_load_status].
  - exact Hu.
  - destruct (start_outcome data s) as [(n & _ & Hs)|[_ Hs]];
      rewrite Hs; [|exact Hu].
    cbn. rewrite lookup_app_l; [exact Hu|]. eapply lookup_lt_Some, Hu.
  - unfold stop_cpu_intensive. destruct (cpu_load_active s); exact Hu.
  - exact Hu.
  - unfold run_thread. destruct (threads s !! t') as [u'|]; [|exact Hu].
    destruct (start_cpu_load_thread_step (cpu_load_active s) u'). cbn.
    rewrite list_lookup_insert_ne; [exact Hu|]. congruence.
Qed.

Lemma exec_sched_thread t s u :
  threads s !! t = Some u ->
  threads (snd (exec (Sched t) s)) !! t =
    Some (snd (start_cpu_load_thread_step (cpu_load_active s) u)) /\
  cpu_load_active (snd (exec (Sched t) s)) =
    fst (start_cpu_load_thread_step (cpu_load_active s) u).
Proof.
  intros Hu. cbn. unfold run_thread. rewrite Hu.
  destruct (start_cpu_load_thread_step (cpu_load_active s) u) as [a' u']. cbn.
  split; [|reflexivity]. apply list_lookup_insert_eq. eapply lookup_lt_Some, Hu.
Qed.

(** X11.  A unit that has ended stays ended and stays in the pool: no
    request and no scheduling ever restarts or removes it. *)
Theorem ended_unit_stays_ended :
  forall (es : list event) (s : state) (t : nat),
    threads s !! t = Some Done ->
    threads (final es s) !! t = Some Done.
Proof.
  induction es as [|e es IH]; intros s t Hdone; [exact Hdone|].
  rewrite final_cons. apply IH.
  destruct e as [r|t']; [apply exec_thread_frame; [assumption|discriminate]|].
  destruct (decide (t' = t)) as [->|Hne].
  - destruct (exec_sched_thread t s Done Hdone) as [Ht _]. exact Ht.
  - apply exec_thread_frame; [assumption|congruence].
Qed.

Lemma exec_flag_has_unit e s :
  (cpu_load_active s = true -> exists t f, threads s !! t = Some (InCall f)) ->
  cpu_load_active (snd (exec e s)) = true ->
  exists t f, threads (snd (exec e s)) !! t = Some (InCall f).
Proof.
  intros Hinv. destruct e as [[|data| |]|t'];
    rewrite ?exec_serve; cbn [fst snd handle exec health_check get_cpu_load_status].
  - exact Hinv.
  - destruct (start_outcome data s) as [(n & _ & Hs)|[_ Hs]];
      rewrite Hs; [|exact Hinv].
    cbn. intros Hflag. destruct (Hinv Hflag) as (t & f & Ht).
    exists t, f. rewrite lookup_app_l; [exact Ht|]. eapply lookup_lt_Some, Ht.
  - unfold stop_cpu_intensive.
    destruct (cpu_load_active s) eqn:Hflag; cbn; [discriminate|].
    rewrite Hflag. discriminate.
  - exact Hinv.
  - unfold run_thread. destruct (threads s !! t') as [u'|] eqn:Hu'; [|exact Hinv].
    destruct u' as [n|[n a b k|n a b k|b]|]; cbn; intros Hflag;
      try discriminate.
    + exists t', (calculate_fibonacci_enter n).
      apply list_lookup_insert_eq. eapply lookup_lt_Some, Hu'.
    + eexists t', _. apply list_lookup_insert_eq. eapply lookup_lt_Some, Hu'.
    + eexists t', _. apply list_lookup_insert_eq. eapply lookup_lt_Some, Hu'.
    + destruct (Hinv Hflag) as (t & f & Ht). exists t, f.
      destruct (decide (t' = t)) as [->|Hne]; [congruence|].
      rewrite list_lookup_insert_ne; assumption.
Qed.

Lemma final_flag_has_unit es : forall s,
  (cpu_load_active s = true -> exists t f, threads s !! t = Some (InCall f)) ->
  cpu_load_active (final es s) = true ->
  exists t f, threads (final es s) !! t = Some (InCall f).
Proof.
  induction es as [|e es IH]; intros s Hinv; [exact Hinv|].
  rewrite final_cons. apply IH, exec_flag_has_unit, Hinv.
Qed.

(** X12.  The flag is never left set without a unit to clear it: after
    every history from the initial state, if the flag is true then some
    unit of the pool has passed line 45 and has not yet run line 48. *)
Theorem set_flag_has_running_unit :
  forall es : list event,
    cpu_load_active (final es initial) = true ->
    exists t f, threads (final es initial) !! t = Some (InCall f).
Proof.
  intros es. apply final_flag_has_unit. discriminate.
Qed.

(** ** How the operations compose *)

(** The first statement of a thread that was just appended to the pool. *)
Lemma spawned_first_statement (l : list unit_state) n active handle_ :
  run_thread (length l)
    {| cpu_load_active := active; cpu_thread := handle_; threads := l ++ [Entry n] |} =
    {| cpu_load_active := true; cpu_thread := handle_;
       threads := l ++ [InCall (calculate_fibonacci_enter n)] |}.
Proof.
  unfold run_thread. cbn [threads cpu_load_active cpu_thread].
  rewrite list_lookup_middle by reflexivity. cbn.
  rewrite insert_app_r_alt, Nat.sub_diag by lia. reflexivity.
Qed.

Lemma run_unfold e es s :
  run (e :: es) s =
    (from_option (fun rep => rep :: fst (run es (snd (exec e s))))
                 (fst (run es (snd (exec e s)))) (fst (exec e s)),
     final es (snd (exec e s))).
Proof.
  unfold final. cbn [run]. destruct (exec e s) as [r s']. cbn [fst snd].
  destruct (run es s') as [rs s'']. destruct r; reflexivity.
Qed.

Lemma final_nil s : final [] s = s.
Proof. reflexivity. Qed.

Lemma run_nil s : run [] s = ([], s).
Proof. reflexivity. Qed.

Ltac step_history :=
  repeat (rewrite ?run_unfold, ?final_cons, ?exec_serve, ?run_nil, ?final_nil);
  cbn [handle fst snd from_option exec].

(** X13.  A stop request that is served after a start request was
    accepted but before the new thread has run its first statement finds
    the flag false: it is answered "No CPU load active." and signals
    nothing; the thread then sets the flag and starts its loop. *)
Theorem stop_before_first_statement_is_lost :
  forall (s : state) (data : option json) (n : Z),
    cpu_load_active s = false ->
    resolve_iterations data = Ok (inr n) ->
    run [Serve (POST_start_cpu_intensive data); Serve POST_stop_cpu_intensive;
         Sched (length (threads s))] s =
      ([Response {[ "message" := JStr (started_message n) ]} 202;
        Response {[ "message" := JStr "No CPU load active." ]} 200],
       {| cpu_load_active := true;
          cpu_thread := Some (length (threads s));
          threads := threads s ++ [InCall (calculate_fibonacci_enter n)] |}).
Proof.
  intros s data n Hidle Hres.
  step_history. rewrite (start_accepts s data n Hidle Hres). cbn [fst snd].
  unfold stop_cpu_intensive. cbn [cpu_load_active negb fst snd].
  rewrite spawned_first_statement. reflexivity.
Qed.

(** X14.  A stop request is lost when a start request follows it closely:
    if a unit stands at an iteration boundary with work left, and a stop
    request, an accepted start request and the first statement of the new
    thread come before its next statement, then the unit reads a set flag
    and goes on: both units run. *)
Theorem stop_then_start_revives_unit :
  forall (s : state) (t : nat) (n a b : Z) (k : nat) (data : option json) (m : Z),
    cpu_load_active s = true ->
    threads s !! t = Some (InCall (LoopHead n a b k)) ->
    Z.of_nat k < n ->
    resolve_iterations data = Ok (inr m) ->
    run [Serve POST_stop_cpu_intensive; Serve (POST_start_cpu_intensive data);
         Sched (length (threads s)); Sched t] s =
      ([Response {[ "message" := JStr "Signal sent to stop CPU-intensive task." ]} 200;
        Response {[ "message" := JStr (started_message m) ]} 202],
       {| cpu_load_active := true;
          cpu_thread := Some (length (threads s));
          threads := <[t := InCall (Body n a b k)]> (threads s)
                       ++ [InCall (calculate_fibonacci_enter m)] |}).
Proof.
  intros s t n a b k data m Hactive Ht Hk Hres.
  step_history. unfold stop_cpu_intensive. rewrite Hactive. cbn [negb fst snd].
  rewrite (start_accepts {| cpu_load_active := false; cpu_thread := cpu_thread s;
                            threads := threads s |} data m eq_refl Hres).
  cbn [fst snd threads cpu_thread cpu_load_active].
  rewrite spawned_first_statement.
  unfold run_thread. cbn [threads cpu_load_active cpu_thread].
  rewrite lookup_app_l, Ht by (eapply lookup_lt_Some, Ht). cbn.
  destruct (Z.leb_spec n (Z.of_nat k)); [lia|]. cbn.
  rewrite insert_app_l by (eapply lookup_lt_Some, Ht). reflexivity.
Qed.

(** X15.  The flag is shared by all units: when one unit runs line 48,
    another unit that stands at an iteration boundary leaves its loop at
    its next statement, although no stop request was served and whatever
    work it has left. *)
Theorem ending_unit_stops_the_others :
  forall (s : state) (t t' : nat) (b n a b' : Z) (k : nat),
    t <> t' ->
    threads s !! t = Some (InCall (Returned b)) ->
    threads s !! t' = Some (InCall (LoopHead n a b' k)) ->
    final [Sched t; Sched t'] s =
      {| cpu_load_active := false;
         cpu_thread := cpu_thread s;
         threads := <[t' := InCall (Returned b')]> (<[t := Done]> (threads s)) |}.
Proof.
  intros s t t' b n a b' k Hne Ht Ht'.
  step_history. unfold run_thread at 2. rewrite Ht. cbn.
  unfold run_thread. cbn [threads cpu_load_active cpu_thread].
  rewrite list_lookup_insert_ne, Ht' by exact Hne. cbn.
  destruct (n <=? Z.of_nat k); reflexivity.
Qed.

Lemma final_sched_repeat j : forall s t u i,
  threads s !! t = Some u ->
  final (repeat (Sched t) j) s =
    {| cpu_load_active := fst (run_unit quiet i j (cpu_load_active s) u);
       cpu_thread := cpu_thread s;
       threads := <[t := snd (run_unit quiet i j (cpu_load_active s) u)]> (threads s) |}.
Proof.
  induction j as [|j IH]; intros s t u i Hu.
  - cbn. rewrite list_insert_id by exact Hu. destruct s; reflexivity.
  - cbn [repeat]. rewrite final_cons. cbn [exec snd].
    rewrite run_unit_S.
    change (default (cpu_load_active s) (quiet i)) with (cpu_load_active s).
    unfold run_thread. rewrite Hu.
    destruct (start_cpu_load_thread_step (cpu_load_active s) u) as [a' u'].
    rewrite (IH _ t u' (S i)); cbn [threads cpu_load_active cpu_thread].
    + rewrite list_insert_insert_eq. reflexivity.
    + apply list_lookup_insert_eq. eapply lookup_lt_Some, Hu.
Qed.

Lemma run_unit_complete env (n : nat) active :
  (forall i, env i <> Some false) ->
  run_unit env 0 (2 * n + 3) active (Entry (Z.of_nat n)) = (false, Done).
Proof.
  intros Henv. replace (2 * n + 3)%nat with (S (S (2 * n + 1))) by lia.
  rewrite run_unit_snoc, run_unit_snoc, run_unit_boundary by (exact Henv || lia).
  rewrite undisturbed_seen by apply Henv. cbn.
  rewrite Z.leb_refl. reflexivity.
Qed.

(** X16.  A whole run: when a start request for [n] iterations is
    accepted and its thread then runs [2 * n + 3] statements with no
    other event in between, the unit has ended, the flag is false again,
    the handle designates the ended unit and the units that were in the
    pool before are as they were. *)
Theorem accepted_start_runs_to_idle :
  forall (s : state) (data : option json) (n : nat),
    cpu_load_active s = false ->
    resolve_iterations data = Ok (inr (Z.of_nat n)) ->
    final (Serve (POST_start_cpu_intensive data)
             :: repeat (Sched (length (threads s))) (2 * n + 3)) s =
      {| cpu_load_active := false;
         cpu_thread := Some (length (threads s));
         threads := threads s ++ [Done] |}.
Proof.
  intros s data n Hidle Hres.
  rewrite final_cons, exec_serve. cbn [handle snd].
  rewrite (start_accepts s data _ Hidle Hres). cbn [snd].
  rewrite (final_sched_repeat _ _ _ (Entry (Z.of_nat n)) 0%nat);
    cbn [threads cpu_load_active cpu_thread];
    [|apply list_lookup_middle; reflexivity].
  rewrite run_unit_complete by (intros i; unfold quiet; discriminate).
  cbn [fst snd]. rewrite insert_app_r_alt, Nat.sub_diag by lia. reflexivity.
Qed.

(** X17.  The configured default is not validated: with a default that
    is zero or negative, a request without body served while no task is
    active is accepted with 202 and spawns a unit for that count, while
    the same count supplied in the body is rejected with 400. *)
Theorem default_count_is_not_validated :
  forall s : state,
    cpu_load_active s = false ->
    FIB_ITERATIONS <= 0 ->
    start_cpu_intensive None s =
      (Response {[ "message" := JStr (started_message FIB_ITERATIONS) ]} 202,
       {| cpu_load_active := false;
          cpu_thread := Some (length (threads s));
          threads := threads s ++ [Entry FIB_ITERATIONS] |}) /\
    start_cpu_intensive (iterations_body (JInt FIB_ITERATIONS)) s = (positive_error, s).
Proof.
  intros s Hidle Hneg. split.
  - apply start_accepts; [exact Hidle | reflexivity].
  - unfold start_cpu_intensive, iterations_body.
    rewrite Hidle, (resolve_iterations_dict _ (JInt FIB_ITERATIONS))
      by apply lookup_singleton_eq.
    cbn. destruct (Z.leb_spec FIB_ITERATIONS 0); [reflexivity|lia].
Qed.

(** ** Mutual exclusion for a patient client *)

Lemma working_after_statement s t f a' u' :
  one_working_unit s ->
  cpu_thread s = Some t ->
  threads s !! t = Some (InCall f) ->
  (a' = true /\ exists f', u' = InCall f') \/ (a' = false /\ u' = Done) ->
  one_working_unit {| cpu_load_active := a'; cpu_thread := cpu_thread s;
                      threads := <[t := u']> (threads s) |}.
Proof.
  intros (Hone & _ & Hentry) Hhandle Hu Hnew.
  assert (t < length (threads s))%nat as Hlt by (eapply lookup_lt_Some, Hu).
  split; [|split]; cbn [threads cpu_load_active cpu_thread].
  - intros t0 f0 Hu0. destruct (decide (t0 = t)) as [->|Hne].
    + rewrite list_lookup_insert_eq in Hu0 by exact Hlt. injection Hu0 as ->.
      destruct Hnew as [[-> _]|[_ [=]]]. split; [reflexivity|exact Hhandle].
    + rewrite list_lookup_insert_ne in Hu0 by congruence.
      destruct (Hone t0 f0 Hu0) as [_ Ht0]. congruence.
  - intros ->. destruct Hnew as [[_ [f' ->]]|[[=] _]].
    exists t, f'. split; [exact Hhandle|]. apply list_lookup_insert_eq, Hlt.
  - intros t0 n Hu0. destruct (decide (t0 = t)) as [->|Hne].
    + rewrite list_lookup_insert_eq in Hu0 by exact Hlt. injection Hu0 as ->.
      destruct Hnew as [[_ [f' [=]]]|[_ [=]]].
    + rewrite list_lookup_insert_ne in Hu0 by congruence.
      exact (Hentry t0 n Hu0).
Qed.

Lemma working_run_thread t s : one_working_unit s -> one_working_unit (run_thread t s).
Proof.
  intros Hw. unfold run_thread.
  destruct (threads s !! t) as [u|] eqn:Hu; [|exact Hw].
  destruct u as [n|f|].
  - destruct Hw as (_ & _ & Hentry). destruct (Hentry t n Hu).
  - destruct (proj1 Hw t f Hu) as [Hflag Hhandle]. rewrite Hflag.
    destruct f as [n a b k|n a b k|b]; cbn [start_cpu_load_thread_step];
      apply (working_after_statement s t _ _ _ Hw Hhandle Hu);
      (left; split; [reflexivity|eexists; reflexivity]) || (right; split; reflexivity).
  - cbn. rewrite list_insert_id by exact Hu. destruct s; exact Hw.
Qed.

Lemma working_action a s :
  one_working_unit s -> one_working_unit (final (events_of a s) s).
Proof.
  intros Hw. destruct a as [data| | |t]; cbn [events_of]; step_history;
    try exact Hw; [|apply working_run_thread, Hw].
  assert (run_thread (length (threads s)) s = s) as Hnone.
  { unfold run_thread. rewrite lookup_ge_None_2 by lia. reflexivity. }
  destruct (cpu_load_active s) eqn:Hflag.
  - unfold start_cpu_intensive. rewrite Hflag. cbn [snd]. rewrite Hnone. exact Hw.
  - destruct (start_outcome data s) as [(n & _ & ->)|[_ ->]];
      [|rewrite Hnone; exact Hw].
    rewrite spawned_first_statement.
    destruct Hw as (Hone & _ & Hentry).
    split; [|split]; cbn [threads cpu_load_active cpu_thread].
    + intros t f Hu. apply lookup_snoc_Some in Hu as [[_ Hu]|[-> _]].
      * destruct (Hone t f Hu) as [Htrue _]. congruence.
      * split; reflexivity.
    + intros _. eexists _, _. split; [reflexivity|].
      apply list_lookup_middle. reflexivity.
    + intros t m Hu. apply lookup_snoc_Some in Hu as [[_ Hu]|[_ [=]]].
      exact (Hentry t m Hu).
Qed.

Lemma working_script acts : forall s,
  one_working_unit s -> one_working_unit (final (script acts s) s).
Proof.
  induction acts as [|a acts IH]; intros s Hw; [exact Hw|].
  cbn [script]. rewrite final_app. apply IH, working_action, Hw.
Qed.

Lemma working_initial : one_working_unit initial.
Proof.
  split; [|split].
  - intros t f Hu. discriminate.
  - discriminate.
  - intros t n Hu. discriminate.
Qed.

(** X18.  Mutual exclusion of the loops does hold for a client that
    never asks to stop and that, after each start request, waits until
    the new thread has run its first statement: after every such history
    from the initial state at most one thread is between line 45 and line
    48, it is the thread that the handle designates, the flag is set
    exactly when there is such a thread, and no started thread is left
    before line 45. *)
Theorem patient_client_has_one_working_unit :
  forall acts : list action,
    one_working_unit (final (script acts initial) initial).
Proof.
  intros acts. apply working_script, working_initial.
Qed.


End App.

(** ** Witnesses and counterexamples *)

(** [int] on strings and on floats, on a few values. *)
Example ascii_int_of_str_examples :
  map ascii_int_of_str [" 42 "; "-7"; "1_000"; "007"; "abc"; ""; "2.5"; "1__0"; "- 5"] =
    [Some 42; Some (-7); Some 1000; Some 7; None; None; None; None; None].
Proof. by_evaluation. Qed.

Example int_of_float_examples :
  map int_of_float
    [float_2_5; S754_finite true 5 (-1); S754_finite false 3 2; S754_zero true;
     S754_nan; S754_infinity false] =
    [Ok 2; Ok (-2); Ok 12; Ok 0; Raise ValueError; Raise OverflowError].
Proof. by_evaluation. Qed.

(** [busy] is the state after a start request for 7 iterations and the
    first statement of its thread. *)
Example busy_is_reachable :
  final default_FIB_ITERATIONS ascii_int_of_str
    [Serve (POST_start_cpu_intensive (iterations_body (JInt 7))); Sched 0] initial = busy.
Proof. by_evaluation. Qed.

(** A whole cancellation: a unit asked for 3 iterations completes one,
    a stop request is served, and the unit ends at its next boundary. *)
Example stop_ends_unit_at_next_boundary :
  run default_FIB_ITERATIONS ascii_int_of_str
    [Serve (POST_start_cpu_intensive (iterations_body (JInt 3)));
     Sched 0; Sched 0; Sched 0;
     Serve POST_stop_cpu_intensive;
     Sched 0; Sched 0;
     Serve (POST_start_cpu_intensive (iterations_body (JInt 0)))] initial =
    ([Response {[ "message" := JStr "CPU-intensive task started with 3 iterations." ]} 202;
      Response {[ "message" := JStr "Signal sent to stop CPU-intensive task." ]} 200;
      positive_error],
     {| cpu_load_active := false; cpu_thread := Some 0%nat; threads := [Done] |}).
Proof. by_evaluation. Qed.

(** A stop request that lands while the unit, asked for 3 iterations, has
    completed one of them: the unit breaks at its next boundary and ends
    after 5 statements instead of 9. *)
Lemma unit_checks_flag_and_clears_it_witness :
  run_unit (stop_before 3) 0 4 false (Entry 3) = (false, InCall (Returned 1)) /\
  run_unit (stop_before 3) 0 5 false (Entry 3) = (false, Done).
Proof.
  destruct (unit_checks_flag_and_clears_it 3 (stop_before 3) false) as [Hbreak _].
  destruct (Hbreak 3%nat true 1 1 1%nat) as [Hleft Hend];
    [reflexivity | reflexivity |].
  split; [exact Hleft | exact Hend].
Defined.

(** Five iterations with nothing else touching the flag: 12 statements,
    and [b] is [fib 6 = 8]. *)
Lemma fibonacci_advances_n_times_witness :
  (forall i, quiet i <> Some false) /\
  run_unit quiet 0 12 false (Entry 5) = (true, InCall (Returned 8)).
Proof.
  assert (forall i, quiet i <> Some false) as Hquiet
    by (intros i; unfold quiet; discriminate).
  split; [exact Hquiet|].
  exact (proj1 (proj2 (fibonacci_advances_n_times 5 quiet false Hquiet))).
Defined.

(** A request for zero iterations, and one for ["abc"], served while
    nothing is active. *)
Lemma start_rejects_bad_iterations_witness :
  cpu_load_active initial = false /\
  start_cpu_intensive default_FIB_ITERATIONS ascii_int_of_str
    (iterations_body (JInt 0)) initial = (positive_error, initial) /\
  start_cpu_intensive default_FIB_ITERATIONS ascii_int_of_str
    (iterations_body (JStr "abc")) initial = (invalid_error, initial).
Proof.
  split; [reflexivity|]. split.
  - refine (proj1 (start_rejects_bad_iterations default_FIB_ITERATIONS
                     ascii_int_of_str initial {[ "iterations" := JInt 0 ]}
                     (JInt 0) positive_error _ _ _)).
    + reflexivity.
    + reflexivity.
    + left. exists 0. repeat split. lia.
  - refine (proj1 (start_rejects_bad_iterations default_FIB_ITERATIONS
                     ascii_int_of_str initial {[ "iterations" := JStr "abc" ]}
                     (JStr "abc") invalid_error _ _ _)).
    + reflexivity.
    + reflexivity.
    + right. split; reflexivity.
Defined.

(** C1 as stated fails at three requests.  Zero iterations asked while a
    task is active: 409, not 400.  2.5 iterations asked while nothing is
    active: [int] drops the fraction, the reply is 202 and a unit is
    spawned for 2 iterations.  [null] iterations asked while nothing is
    active: [int(None)] raises [TypeError], which line 84 does not catch,
    so the request is answered 500. *)
Lemma start_bad_iterations_not_always_400 :
  start_cpu_intensive default_FIB_ITERATIONS ascii_int_of_str
    (iterations_body (JInt 0)) busy =
    (Response {[ "message" := JStr "CPU load already active." ]} 409, busy) /\
  start_cpu_intensive default_FIB_ITERATIONS ascii_int_of_str
    (iterations_body (JFloat float_2_5)) initial =
    (Response {[ "message" := JStr "CPU-intensive task started with 2 iterations." ]} 202,
     {| cpu_load_active := false; cpu_thread := Some 0%nat; threads := [Entry 2] |}) /\
  start_cpu_intensive default_FIB_ITERATIONS ascii_int_of_str
    (iterations_body JNull) initial = (Uncaught TypeError, initial).
Proof. repeat split; by_evaluation. Qed.

(** [float_2_5] is a double, and it is not an integer. *)
Lemma float_2_5_is_a_double : valid_binary 53 1024 float_2_5 = true.
Proof. reflexivity. Qed.

(** C2, the code at a request without body served in the initial state:
    the reply is 202 and the unit is spawned with the default count, but
    the flag is still false when the reply is given, because line 45 is a
    statement of the spawned thread; a status request served next reports
    ["inactive"] with a thread that is alive. *)
Theorem start_reply_leaves_flag_false :
  run default_FIB_ITERATIONS ascii_int_of_str
    [Serve (POST_start_cpu_intensive None); Serve GET_status_cpu_load] initial =
    ([Response {[ "message" := JStr "CPU-intensive task started with 500000 iterations." ]} 202;
      Response (<[ "status" := JStr "inactive" ]>
               (<[ "message" := JStr "No CPU load is currently active." ]>
               (<[ "fib_iterations_configured" := JInt 500000 ]>
               {[ "current_thread_alive" := JBool true ]}))) 200],
     {| cpu_load_active := false;
        cpu_thread := Some 0%nat;
        threads := [Entry 500000] |}).
Proof. by_evaluation. Qed.

(** C5, the code at two start requests, for 3 and for 5 iterations, the
    second served before the thread of the first has run line 45: both
    are answered 202, and both units then run their loops side by side. *)
Theorem two_starts_both_accepted :
  run default_FIB_ITERATIONS ascii_int_of_str
    [Serve (POST_start_cpu_intensive (iterations_body (JInt 3)));
     Serve (POST_start_cpu_intensive (iterations_body (JInt 5)));
     Sched 0; Sched 1; Sched 0; Sched 1] initial =
    ([Response {[ "message" := JStr "CPU-intensive task started with 3 iterations." ]} 202;
      Response {[ "message" := JStr "CPU-intensive task started with 5 iterations." ]} 202],
     {| cpu_load_active := true;
        cpu_thread := Some 1%nat;
        threads := [InCall (Body 3 0 1 0); InCall (Body 5 0 1 0)] |}).
Proof. by_evaluation. Qed.

(** A start request with an invalid body, served while a unit runs. *)
Lemma start_conflict_when_active_witness :
  cpu_load_active busy = true /\
  start_cpu_intensive default_FIB_ITERATIONS ascii_int_of_str
    (iterations_body (JStr "abc")) busy =
    (Response {[ "message" := JStr "CPU load already active." ]} 409, busy).
Proof.
  split; [reflexivity|].
  apply (start_conflict_when_active default_FIB_ITERATIONS ascii_int_of_str busy).
  reflexivity.
Defined.

(** A stop request served in the initial state. *)
Lemma stop_when_inactive_is_noop_witness :
  cpu_load_active initial = false /\
  stop_cpu_intensive initial =
    (Response {[ "message" := JStr "No CPU load active." ]} 200, initial).
Proof.
  split; [reflexivity|].
  apply (stop_when_inactive_is_noop initial). reflexivity.
Defined.

(** A stop request served while a unit runs: the unit is still alive. *)
Lemma stop_when_active_signals_witness :
  cpu_load_active busy = true /\
  cpu_load_active (snd (stop_cpu_intensive busy)) = false /\
  current_thread_alive (snd (stop_cpu_intensive busy)) = true.
Proof.
  split; [reflexivity|].
  destruct (stop_when_active_signals busy eq_refl) as [Hstop Halive].
  split; [rewrite Hstop; reflexivity | rewrite Halive; reflexivity].
Defined.

(** ** Configuration *)

(** X19.  The module loads exactly when each of [PORT] and
    [FIB_ITERATIONS] that the environment sets is a text that [int]
    reads; a variable that is not set stands for 5000, respectively
    500000; a variable that [int] does not read stops the import with
    [ValueError]; the values read are taken as they are, whatever their
    sign or size. *)
Theorem config_is_read_unchecked :
  forall (int_of_str : string -> option Z) (environ : gmap string string),
    (forall port fib,
        load_config int_of_str environ = Ok (port, fib) <->
        from_option int_of_str (Some 5000) (environ !! "PORT") = Some port /\
        from_option int_of_str (Some 500000) (environ !! "FIB_ITERATIONS") = Some fib) /\
    (load_config int_of_str environ = Raise ValueError <->
       (exists text, environ !! "PORT" = Some text /\ int_of_str text = None) \/
       (exists text, environ !! "FIB_ITERATIONS" = Some text /\ int_of_str text = None)) /\
    (forall e, load_config int_of_str environ = Raise e -> e = ValueError).
Proof.
  intros int_of_str environ. unfold load_config, getenv_int.
  destruct (environ !! "PORT") as [ptext|]; cbn;
    [destruct (int_of_str ptext) as [p|] eqn:Hp; cbn|];
    (destruct (environ !! "FIB_ITERATIONS") as [ftext|]; cbn;
      [destruct (int_of_str ftext) as [f|] eqn:Hf; cbn|]);
    (split; [|split]);
    try (intros port fib; split; [intros [= <- <-]; split; reflexivity
                                 |intros [[= <-] [= <-]]; reflexivity]);
    try (intros port fib; split; [discriminate|intros [H1 H2]; discriminate]);
    try (split; [discriminate|intros [(text & [= <-] & Hnone)|(text & [= <-] & Hnone)];
                              congruence]);
    try (split; [discriminate|intros [(text & Hs & _)|(text & Hs & _)]; discriminate]);
    try (split; [intros _|reflexivity]; eauto);
    try (intros e; intros [= <-]; reflexivity);
    try (intros e; discriminate).
Qed.

(** ** Witnesses of the further properties *)

(** [two_units] is reached without any race: a unit is started for one
    iteration, a stop request and a second start request come while it
    stands at its first boundary, and it then completes its iteration. *)
Example two_units_is_reachable :
  final default_FIB_ITERATIONS ascii_int_of_str
    [Serve (POST_start_cpu_intensive (iterations_body (JInt 1))); Sched 0;
     Serve POST_stop_cpu_intensive;
     Serve (POST_start_cpu_intensive (iterations_body (JInt 5))); Sched 1;
     Sched 0; Sched 0; Sched 0] initial = two_units.
Proof. by_evaluation. Qed.

(** A stop lands while the unit is in the body of its second iteration. *)
Lemma cleared_flag_ends_unit_in_three_witness :
  (forall j, stop_before 0 j <> Some true) /\
  default true (stop_before 0 0) = false /\
  run_unit (stop_before 0) 0 3 true (InCall (Body 5 1 1 1)) = (false, Done).
Proof.
  assert (forall j, stop_before 0 j <> Some true) as Henv
    by (intros j; unfold stop_before; destruct (Nat.eqb j 0); discriminate).
  split; [exact Henv|]. split; [reflexivity|].
  exact (cleared_flag_ends_unit_in_three (stop_before 0) 0 true (Body 5 1 1 1)
           Henv eq_refl).
Defined.

(** A unit asked for -4 iterations. *)
Lemma nonpositive_count_runs_no_update_witness :
  -4 <= 0 /\ run_unit quiet 0 3 false (Entry (-4)) = (false, Done).
Proof.
  assert (-4 <= 0) as Hn by lia. split; [exact Hn|].
  exact (proj2 (nonpositive_count_runs_no_update (-4) quiet false Hn)).
Defined.

(** The string " 12 " is read as 12 and run. *)
Lemma start_status_decided_by_int_witness :
  cpu_load_active initial = false /\
  threads (snd (start_cpu_intensive default_FIB_ITERATIONS ascii_int_of_str
                  (iterations_body (JStr " 12 ")) initial)) = [Entry 12].
Proof.
  split; [reflexivity|].
  exact (proj2 (proj2 (proj2
    (start_status_decided_by_int default_FIB_ITERATIONS ascii_int_of_str initial
       {[ "iterations" := JStr " 12 " ]} (JStr " 12 ") eq_refl eq_refl)))).
Defined.

(** [{"iterations": null}] and [{"iterations": [3]}]. *)
Lemma start_uncaught_for_non_numbers_witness :
  start_cpu_intensive default_FIB_ITERATIONS ascii_int_of_str
    (iterations_body JNull) initial = (Uncaught TypeError, initial) /\
  start_cpu_intensive default_FIB_ITERATIONS ascii_int_of_str
    (iterations_body (JArr [JInt 3])) initial = (Uncaught TypeError, initial).
Proof.
  split.
  - apply (start_uncaught_for_non_numbers default_FIB_ITERATIONS ascii_int_of_str
             initial {[ "iterations" := JNull ]} JNull TypeError);
      [reflexivity | reflexivity |].
    left. split; [left; reflexivity | reflexivity].
  - apply (start_uncaught_for_non_numbers default_FIB_ITERATIONS ascii_int_of_str
             initial {[ "iterations" := JArr [JInt 3] ]} (JArr [JInt 3]) TypeError);
      [reflexivity | reflexivity |].
    left. split; [right; left; eexists; reflexivity | reflexivity].
Defined.

(** The body [{"count": 3}] has no ['iterations']. *)
Lemma start_falls_back_to_default_witness :
  cpu_load_active initial = false /\
  snd (start_cpu_intensive default_FIB_ITERATIONS ascii_int_of_str
         (Some (JObj {[ "count" := JInt 3 ]})) initial) =
    {| cpu_load_active := false; cpu_thread := Some 0%nat;
       threads := [Entry 500000] |}.
Proof.
  split; [reflexivity|].
  rewrite (start_falls_back_to_default default_FIB_ITERATIONS ascii_int_of_str
             initial (Some (JObj {[ "count" := JInt 3 ]})) eq_refl).
  - reflexivity.
  - right. right. exists {[ "count" := JInt 3 ]}. split; reflexivity.
Defined.

(** The body [["iterations"]] is an array, not an object. *)
Lemma start_non_object_body_witness :
  cpu_load_active initial = false /\
  start_cpu_intensive default_FIB_ITERATIONS ascii_int_of_str
    (Some (JArr [JStr "iterations"])) initial = (Uncaught TypeError, initial).
Proof.
  split; [reflexivity|].
  apply (proj2 (start_non_object_body default_FIB_ITERATIONS ascii_int_of_str
                  initial (JArr [JStr "iterations"]) eq_refl
                  ltac:(intros m; discriminate))).
  split; [reflexivity | discriminate].
Defined.

(** The first unit of [two_units], once ended, stays ended while the
    second one is served and scheduled. *)
Lemma ended_unit_stays_ended_witness :
  threads (final default_FIB_ITERATIONS ascii_int_of_str [Sched 0] two_units) !! 0%nat
    = Some Done /\
  threads (final default_FIB_ITERATIONS ascii_int_of_str
             [Sched 0; Serve (POST_start_cpu_intensive None); Sched 0; Sched 2;
              Sched 0]
             (final default_FIB_ITERATIONS ascii_int_of_str [Sched 0] two_units))
    !! 0%nat = Some Done.
Proof.
  assert (threads (final default_FIB_ITERATIONS ascii_int_of_str [Sched 0] two_units)
            !! 0%nat = Some Done) as Hdone by reflexivity.
  split; [exact Hdone|].
  exact (ended_unit_stays_ended default_FIB_ITERATIONS ascii_int_of_str _ _ 0%nat Hdone).
Defined.

(** After a start request and the first statement of its thread. *)
Lemma set_flag_has_running_unit_witness :
  cpu_load_active
    (final default_FIB_ITERATIONS ascii_int_of_str
       [Serve (POST_start_cpu_intensive (iterations_body (JInt 7))); Sched 0] initial)
    = true /\
  exists t f,
    threads
      (final default_FIB_ITERATIONS ascii_int_of_str
         [Serve (POST_start_cpu_intensive (iterations_body (JInt 7))); Sched 0] initial)
      !! t = Some (InCall f).
Proof.
  split; [reflexivity|].
  exact (set_flag_has_running_unit default_FIB_ITERATIONS ascii_int_of_str
           [Serve (POST_start_cpu_intensive (iterations_body (JInt 7))); Sched 0]
           eq_refl).
Defined.

(** Start for 3 iterations, then stop at once. *)
Lemma stop_before_first_statement_is_lost_witness :
  cpu_load_active initial = false /\
  final default_FIB_ITERATIONS ascii_int_of_str
    [Serve (POST_start_cpu_intensive (iterations_body (JInt 3)));
     Serve POST_stop_cpu_intensive; Sched 0] initial =
    {| cpu_load_active := true; cpu_thread := Some 0%nat;
       threads := [InCall (calculate_fibonacci_enter 3)] |}.
Proof.
  split; [reflexivity|].
  exact (f_equal snd
           (stop_before_first_statement_is_lost default_FIB_ITERATIONS
              ascii_int_of_str initial (iterations_body (JInt 3)) 3 eq_refl eq_refl)).
Defined.

(** In [busy], a stop and a start without body: the first unit goes on. *)
Lemma stop_then_start_revives_unit_witness :
  cpu_load_active busy = true /\
  final default_FIB_ITERATIONS ascii_int_of_str
    [Serve POST_stop_cpu_intensive; Serve (POST_start_cpu_intensive None);
     Sched 1; Sched 0] busy =
    {| cpu_load_active := true; cpu_thread := Some 1%nat;
       threads := [InCall (Body 7 0 1 0); InCall (calculate_fibonacci_enter 500000)] |}.
Proof.
  split; [reflexivity|].
  exact (f_equal snd
           (stop_then_start_revives_unit default_FIB_ITERATIONS ascii_int_of_str
              busy 0%nat 7 0 1 0%nat None 500000 eq_refl eq_refl eq_refl eq_refl)).
Defined.

(** In [two_units], the end of the first unit stops the second one
    before the first of its five iterations. *)
Lemma ending_unit_stops_the_others_witness :
  final default_FIB_ITERATIONS ascii_int_of_str [Sched 0; Sched 1] two_units =
    {| cpu_load_active := false; cpu_thread := Some 1%nat;
       threads := [Done; InCall (Returned 1)] |}.
Proof.
  exact (ending_unit_stops_the_others default_FIB_ITERATIONS ascii_int_of_str
           two_units 0%nat 1%nat 1 5 0 1 0%nat ltac:(discriminate) eq_refl eq_refl).
Defined.

(** Two iterations asked in the initial state: seven statements. *)
Lemma accepted_start_runs_to_idle_witness :
  cpu_load_active initial = false /\
  final default_FIB_ITERATIONS ascii_int_of_str
    (Serve (POST_start_cpu_intensive (iterations_body (JInt 2)))
       :: repeat (Sched 0) 7) initial =
    {| cpu_load_active := false; cpu_thread := Some 0%nat; threads := [Done] |}.
Proof.
  split; [reflexivity|].
  exact (accepted_start_runs_to_idle default_FIB_ITERATIONS ascii_int_of_str
           initial (iterations_body (JInt 2)) 2%nat eq_refl eq_refl).
Defined.

(** [FIB_ITERATIONS=0] in the environment: the module loads, a request
    without body is accepted, the same count in the body is not. *)
Lemma default_count_is_not_validated_witness :
  load_config ascii_int_of_str {[ "FIB_ITERATIONS" := "0" ]} = Ok (5000, 0) /\
  status_of (fst (start_cpu_intensive 0 ascii_int_of_str None initial)) = 202 /\
  start_cpu_intensive 0 ascii_int_of_str (iterations_body (JInt 0)) initial =
    (positive_error, initial).
Proof.
  split; [reflexivity|].
  destruct (default_count_is_not_validated 0 ascii_int_of_str initial eq_refl
              ltac:(lia)) as [Hdefault Hbody].
  split; [rewrite Hdefault; reflexivity | exact Hbody].
Defined.
